(** * Blender external connectors of COLIBRI VR: a shallow embedding

    The four connector scripts under [Runtime/ExternalConnectors]
    ([Blender_CheckOBJMeshInfo], [Blender_ConvertPLYtoOBJ],
    [Blender_SimplifyOBJ], [Blender_SmartUVProjectOBJ]) and their shared
    module [Blender_Core] are short Python programs run inside Blender in
    background mode.  They are embedded here as computations in a small
    state-and-exception monad over a [World] holding the interpreter state
    ([sys.argv], [sys.path], the two output streams), the host's scene
    ([bpy.data.objects], the active object, the interaction mode), the file
    system, and a ghost [trace] of every interaction with the host and with
    the output streams, in program order.

    The mesh algorithms themselves (file parsing and writing, decimation,
    triangulation, UV projection) belong to the host and stay abstract: they
    are the fields of the [Host] class.  What the host's operators do to the
    scene around those algorithms follows the Blender Python API: selecting
    all selects every object, deleting removes the selected objects, an
    importer adds the objects of the file (selected, without modifiers),
    adding a modifier puts it last on the active object's stack under a
    name unique there, applying a modifier evaluates it into the mesh data
    and takes it off the stack, exporting writes the whole scene.

    Standard output is the character stream the scripts write to
    [sys.stdout]; what the host prints there on its own is not part of it.
    The [import] statements of the scripts are taken to succeed, and
    [str(argv[i])] on an element of [sys.argv], already a string, is that
    element. *)

From Stdlib Require Import ZArith String Ascii List PrimFloat DecimalString DecimalNat.
From stdpp Require Import base option list strings gmap.

#[local] Set Warnings "-inexact-float".
#[local] Open Scope string_scope.

(* ===================================================================== *)
(** ** Python values used by the scripts *)

Module Py.

(** The exceptions the scripts can end with.  [SystemExit] is what
    [sys.exit(code)] raises. *)
Inductive exn : Type :=
| IndexError
| ValueError
| KeyError
| RuntimeError
| ReferenceError
| SystemExit (code : Z).

Inductive outcome (A : Type) : Type :=
| Return (a : A)
| Raise (e : exn).
Arguments Return {A} a.
Arguments Raise {A} e.

(** [str(n)] for a non-negative integer: its decimal digits. *)
Definition str (n : nat) : string :=
  NilZero.string_of_uint (Nat.to_uint n).

(** [l.index(x)]: position of the first element equal to [x]. *)
Fixpoint index (x : string) (l : list string) : option nat :=
  match l with
  | [] => None
  | y :: l' => if String.eqb y x then Some 0 else S <$> index x l'
  end.

(** [l[i:]] for a non-negative [i]. *)
Definition slice_from (i : nat) (l : list string) : list string := drop i l.

Definition LF : ascii := "010"%char.
Definition nl : string := String LF EmptyString.

(** The lines of a character stream: maximal runs without a line feed,
    each ended by a line feed or by the end of the stream. *)
Fixpoint splitlines (s : string) : list string :=
  match s with
  | EmptyString => []
  | String c s' =>
      if Ascii.eqb c LF then EmptyString :: splitlines s'
      else match splitlines s' with
           | [] => [String c EmptyString]
           | l :: ls => String c l :: ls
           end
  end.

(** No line feed occurs in [s]. *)
Fixpoint no_lf (s : string) : bool :=
  match s with
  | EmptyString => true
  | String c s' => negb (Ascii.eqb c LF) && no_lf s'
  end.

(** [math.radians]: CPython multiplies by the double [pi / 180.0]. *)
Definition pi : float := 0x1.921fb54442d18p+1%float.
Definition degToRad : float := (pi / 180)%float.
Definition radians (x : float) : float := (x * degToRad)%float.

End Py.
Import Py.

(* ===================================================================== *)
(** ** The host: scene data and the capabilities the scripts call *)

Inductive modifier_type : Type := DECIMATE | TRIANGULATE.
Inductive decimate_mode : Type := COLLAPSE | UNSUBDIV | DISSOLVE.
Inductive object_mode : Type := OBJECT | EDIT.
Inductive select_action : Type := SELECT | DESELECT.
Inductive apply_target : Type := DATA | SHAPE.

(** A modifier on an object's stack.  The two decimate settings are those
  the Simplify script writes; a fresh decimate modifier has the host's
  defaults. *)
Record Modifier : Type := mkModifier {
mod_name : string;
mod_type : modifier_type;
decimate_type : decimate_mode;
angle_limit : float;
}.

(** [rotation_euler]: a vector of three angles, indexed 0..2. *)
Record Euler : Type := mkEuler { euler_x : float; euler_y : float; euler_z : float }.

Definition euler_set (i : nat) (v : float) (e : Euler) : option Euler :=
match i with
| 0 => Some (mkEuler v (euler_y e) (euler_z e))
| 1 => Some (mkEuler (euler_x e) v (euler_z e))
| 2 => Some (mkEuler (euler_x e) (euler_y e) v)
| _ => None
end.

Record Object (Mesh : Type) : Type := mkObject {
ob_name : string;
ob_data : Mesh;
ob_select : bool;
rotation_euler : Euler;
modifiers : list Modifier;
}.
Arguments mkObject {Mesh}.
Arguments ob_name {Mesh}.
Arguments ob_data {Mesh}.
Arguments ob_select {Mesh}.
Arguments rotation_euler {Mesh}.
Arguments modifiers {Mesh}.

(** What an importer hands to the scene for each object of a file. *)
Record Imported (Mesh : Type) : Type := mkImported {
imp_name : string;
imp_data : Mesh;
imp_rotation : Euler;
}.
Arguments mkImported {Mesh}.
Arguments imp_name {Mesh}.
Arguments imp_data {Mesh}.
Arguments imp_rotation {Mesh}.

(** The host's own algorithms, opaque to the connectors. *)
Class Host : Type := {
Mesh : Type;
Polygon : Type;
File : Type;
polygons : Mesh -> list Polygon;
read_obj : File -> option (list (Imported Mesh));
read_ply : File -> option (list (Imported Mesh));
write_obj : list (Object Mesh) -> File;
decimate : decimate_mode -> float -> Mesh -> Mesh;
triangulate : Mesh -> Mesh;
select_faces : select_action -> Mesh -> Mesh;
smart_project : Mesh -> Mesh;
}.

(** Default settings of a new modifier (decimate: collapse mode, 5 degrees). *)
Definition new_modifier (name : string) (ty : modifier_type) : Modifier :=
mkModifier name ty COLLAPSE (radians 5).

Definition modifier_base_name (ty : modifier_type) : string :=
match ty with DECIMATE => "Decimate" | TRIANGULATE => "Triangulate" end.

(** The host keeps modifier names unique on a stack by numbering clashes. *)
Fixpoint fresh_name (fuel k : nat) (base : string) (used : list string) : string :=
let cand := if k is 0 then base else base ++ "." ++ str k in
match fuel with
| 0 => cand
| S fuel' => if bool_decide (cand ∈ used) then fresh_name fuel' (S k) base used else cand
end.

(** Everything the scripts do to the host or to the output streams, in
  program order. *)
Inductive event : Type :=
| EvStdoutWrite (data : string)
| EvStdoutFlush
| EvStderrWrite (data : string)
| EvStderrFlush
| EvSysPathAppend (dir : string)
| EvObjectsLen (n : nat)
| EvObjectsGetItem (i : nat)
| EvPolygonsLen (ob : string) (n : nat)
| EvSetActive (ob : string)
| EvSetRotationEuler (ob : string) (i : nat) (v : float)
| EvModifiersGetItem (ob : string) (i : nat) (stack : list Modifier)
| EvModifierGetName (ob : string) (name : string)
| EvSetDecimateType (ob : string) (name : string) (v : decimate_mode)
| EvSetAngleLimit (ob : string) (name : string) (v : float)
| EvSelectAll (action : select_action)
| EvDelete (use_global : bool)
| EvImportObj (filepath : string)
| EvImportPly (filepath : string)
| EvExportObj (filepath : string)
| EvModifierAdd (ty : modifier_type)
| EvModifierApply (apply_as : apply_target) (name : string) (found : option Modifier)
| EvModeSet (m : object_mode)
| EvMeshSelectAll (action : select_action)
| EvSmartProject.

(* ===================================================================== *)
(** ** The world a connector runs in, and the monad of its statements *)

Section WithHost.
Context `{Host}.

Record World : Type := mkWorld {
  sys_argv : list string;
  sys_path : list string;
  stdout : string;
  stderr : string;
  files : gmap string File;
  objects : list (Object Mesh);        (* bpy.data.objects *)
  active : option string;              (* bpy.context.view_layer.objects.active *)
  mode : object_mode;
  trace : list event;
}.

(** The state of the process when the host hands control to the script:
    nothing written yet, whatever scene the host started with. *)
Definition boot (argv path : list string) (fs : gmap string File)
    (objs : list (Object Mesh)) (act : option string) : World :=
  mkWorld argv path "" "" fs objs act OBJECT [].

Definition with_path (p : list string) (w : World) : World :=
  mkWorld (sys_argv w) p (stdout w) (stderr w) (files w) (objects w) (active w) (mode w) (trace w).
Definition with_stdout (s : string) (w : World) : World :=
  mkWorld (sys_argv w) (sys_path w) s (stderr w) (files w) (objects w) (active w) (mode w) (trace w).
Definition with_stderr (s : string) (w : World) : World :=
  mkWorld (sys_argv w) (sys_path w) (stdout w) s (files w) (objects w) (active w) (mode w) (trace w).
Definition with_files (fs : gmap string File) (w : World) : World :=
  mkWorld (sys_argv w) (sys_path w) (stdout w) (stderr w) fs (objects w) (active w) (mode w) (trace w).
Definition with_objects (objs : list (Object Mesh)) (w : World) : World :=
  mkWorld (sys_argv w) (sys_path w) (stdout w) (stderr w) (files w) objs (active w) (mode w) (trace w).
Definition with_active (a : option string) (w : World) : World :=
  mkWorld (sys_argv w) (sys_path w) (stdout w) (stderr w) (files w) (objects w) a (mode w) (trace w).
Definition with_mode (m : object_mode) (w : World) : World :=
  mkWorld (sys_argv w) (sys_path w) (stdout w) (stderr w) (files w) (objects w) (active w) m (trace w).
Definition log (e : event) (w : World) : World :=
  mkWorld (sys_argv w) (sys_path w) (stdout w) (stderr w) (files w) (objects w) (active w) (mode w)
          (trace w ++ [e]).

(** A statement: runs in a world, returns or raises, leaves a world. *)
Definition Stmt (A : Type) : Type := World -> outcome A * World.

Definition ret {A} (a : A) : Stmt A := fun w => (Return a, w).
Definition raise {A} (e : exn) : Stmt A := fun w => (Raise e, w).
Definition bind {A B} (c : Stmt A) (k : A -> Stmt B) : Stmt B :=
  fun w => match c w with
           | (Return a, w') => k a w'
           | (Raise e, w') => (Raise e, w')
           end.
Definition gets {A} (f : World -> A) : Stmt A := fun w => (Return (f w), w).
Definition modify (f : World -> World) : Stmt unit := fun w => (Return tt, f w).
Definition emit (e : event) : Stmt unit := modify (log e).
Definition or_raise {A} (e : exn) (o : option A) : Stmt A :=
  match o with Some a => ret a | None => raise e end.

End WithHost.

Notation "x <- c ;; k" := (bind c (fun x => k))
(at level 100, c at next level, right associativity,
 format "'[v' x  <-  c  ;;  '/' k ']'").
Notation "c ;;; k" := (bind c (fun _ => k))
(at level 100, right associativity, format "'[v' c  ;;;  '/' k ']'").

(* ===================================================================== *)
(** ** The interpreter and host interfaces the scripts use *)

Module sys.
Section WithHost.
Context `{Host}.

Definition argv : Stmt (list string) := gets sys_argv.

(** [sys.path.append(dir)] *)
Definition path_append (dir : string) : Stmt unit :=
  emit (EvSysPathAppend dir) ;;;
  modify (fun w => with_path (sys_path w ++ [dir]) w).

Definition stdout_write (data : string) : Stmt unit :=
  emit (EvStdoutWrite data) ;;;
  modify (fun w => with_stdout (stdout w ++ data) w).
Definition stdout_flush : Stmt unit := emit EvStdoutFlush.

Definition stderr_write (data : string) : Stmt unit :=
  emit (EvStderrWrite data) ;;;
  modify (fun w => with_stderr (stderr w ++ data) w).
Definition stderr_flush : Stmt unit := emit EvStderrFlush.

Definition exit (code : Z) : Stmt unit := raise (SystemExit code).

(** [l.index(x)], raising [ValueError] when [x] is absent. *)
Definition list_index (x : string) (l : list string) : Stmt nat :=
  or_raise ValueError (index x l).

(** [l[i]], raising [IndexError] out of range. *)
Definition getitem (l : list string) (i : nat) : Stmt string :=
  or_raise IndexError (l !! i).

End WithHost.
End sys.

Module bpy.
Section WithHost.
Context `{Host}.

(** *** Scene bookkeeping *)

Definition find_object (name : string) (objs : list (Object Mesh))
  : option (Object Mesh) :=
  List.find (fun o => String.eqb (ob_name o) name) objs.

(** Replace the first object called [name] by its image under [f]. *)
Fixpoint update_object (name : string) (f : Object Mesh -> Object Mesh)
    (objs : list (Object Mesh)) : list (Object Mesh) :=
  match objs with
  | [] => []
  | o :: rest =>
      if String.eqb (ob_name o) name then f o :: rest
      else o :: update_object name f rest
  end.

Definition set_select (b : bool) (o : Object Mesh) : Object Mesh :=
  mkObject (ob_name o) (ob_data o) b (rotation_euler o) (modifiers o).
Definition set_data (m : Mesh) (o : Object Mesh) : Object Mesh :=
  mkObject (ob_name o) m (ob_select o) (rotation_euler o) (modifiers o).
Definition set_rotation (e : Euler) (o : Object Mesh) : Object Mesh :=
  mkObject (ob_name o) (ob_data o) (ob_select o) e (modifiers o).
Definition set_modifiers (ms : list Modifier) (o : Object Mesh) : Object Mesh :=
  mkObject (ob_name o) (ob_data o) (ob_select o) (rotation_euler o) ms.

Definition find_modifier (name : string) (ms : list Modifier) : option Modifier :=
  List.find (fun m => String.eqb (mod_name m) name) ms.

Fixpoint update_modifier (name : string) (f : Modifier -> Modifier)
    (ms : list Modifier) : list Modifier :=
  match ms with
  | [] => []
  | m :: rest =>
      if String.eqb (mod_name m) name then f m :: rest
      else m :: update_modifier name f rest
  end.

Fixpoint remove_modifier (name : string) (ms : list Modifier) : list Modifier :=
  match ms with
  | [] => []
  | m :: rest =>
      if String.eqb (mod_name m) name then rest
      else m :: remove_modifier name rest
  end.

(** What applying a modifier does to mesh data. *)
Definition eval_modifier (m : Modifier) (d : Mesh) : Mesh :=
  match mod_type m with
  | DECIMATE => decimate (decimate_type m) (angle_limit m) d
  | TRIANGULATE => triangulate d
  end.

(** An importer creates its objects selected, without modifiers. *)
Definition new_object (i : Imported Mesh) : Object Mesh :=
  mkObject (imp_name i) (imp_data i) true (imp_rotation i) [].

(** The active object, for the operators that act on it. *)
Definition active_object : Stmt (Object Mesh) :=
  a <- gets active ;;
  name <- or_raise RuntimeError a ;;
  objs <- gets objects ;;
  or_raise RuntimeError (find_object name objs).

(** Dereference an object the script holds (by its name in the scene). *)
Definition deref (ob : string) : Stmt (Object Mesh) :=
  objs <- gets objects ;;
  or_raise ReferenceError (find_object ob objs).

Definition update (ob : string) (f : Object Mesh -> Object Mesh) : Stmt unit :=
  modify (fun w => with_objects (update_object ob f (objects w)) w).

(** *** [bpy.data] and [bpy.context] accesses *)

(** [len(bpy.data.objects)] *)
Definition data_objects_len : Stmt nat :=
  objs <- gets objects ;;
  emit (EvObjectsLen (length objs)) ;;;
  ret (length objs).

(** [bpy.data.objects[i]]: a reference to the object, [IndexError] out of range. *)
Definition data_objects_getitem (i : nat) : Stmt string :=
  emit (EvObjectsGetItem i) ;;;
  objs <- gets objects ;;
  o <- or_raise IndexError (objs !! i) ;;
  ret (ob_name o).

(** [len(ob.data.polygons)] *)
Definition polygons_len (ob : string) : Stmt nat :=
  o <- deref ob ;;
  let n := length (polygons (ob_data o)) in
  emit (EvPolygonsLen ob n) ;;;
  ret n.

(** [bpy.context.view_layer.objects.active = ob] *)
Definition set_active (ob : string) : Stmt unit :=
  emit (EvSetActive ob) ;;;
  modify (with_active (Some ob)).

(** [ob.rotation_euler[i] = v] *)
Definition set_rotation_euler (ob : string) (i : nat) (v : float) : Stmt unit :=
  emit (EvSetRotationEuler ob i v) ;;;
  o <- deref ob ;;
  e <- or_raise IndexError (euler_set i v (rotation_euler o)) ;;
  update ob (set_rotation e).

(** [ob.modifiers[i]]: a reference to the modifier (its name on the stack). *)
Definition modifiers_getitem (ob : string) (i : nat) : Stmt string :=
  o <- deref ob ;;
  emit (EvModifiersGetItem ob i (modifiers o)) ;;;
  m <- or_raise IndexError (modifiers o !! i) ;;
  ret (mod_name m).

(** [m.name], through a modifier reference obtained from [ob.modifiers]. *)
Definition modifier_name (ob m : string) : Stmt string :=
  emit (EvModifierGetName ob m) ;;;
  o <- deref ob ;;
  m' <- or_raise ReferenceError (find_modifier m (modifiers o)) ;;
  ret (mod_name m').

Definition set_field (ob name : string) (f : Modifier -> Modifier) : Stmt unit :=
  o <- deref ob ;;
  _ <- or_raise KeyError (find_modifier name (modifiers o)) ;;
  update ob (fun o => set_modifiers (update_modifier name f (modifiers o)) o).

(** [ob.modifiers[name].decimate_type = v] *)
Definition set_decimate_type (ob name : string) (v : decimate_mode) : Stmt unit :=
  emit (EvSetDecimateType ob name v) ;;;
  set_field ob name (fun m => mkModifier (mod_name m) (mod_type m) v (angle_limit m)).

(** [ob.modifiers[name].angle_limit = v] *)
Definition set_angle_limit (ob name : string) (v : float) : Stmt unit :=
  emit (EvSetAngleLimit ob name v) ;;;
  set_field ob name (fun m => mkModifier (mod_name m) (mod_type m) (decimate_type m) v).

End WithHost.

(** *** [bpy.ops]: the host's operators *)

Module ops.
Section WithHost.
Context `{Host}.

(** [bpy.ops.object.select_all(action=...)] *)
Definition object_select_all (action : select_action) : Stmt unit :=
  emit (EvSelectAll action) ;;;
  modify (fun w =>
    with_objects
      (set_select (if action is SELECT then true else false) <$> objects w) w).

(** [bpy.ops.object.delete(use_global=...)]: removes the selected objects. *)
Definition object_delete (use_global : bool) : Stmt unit :=
  emit (EvDelete use_global) ;;;
  modify (fun w =>
    let kept := List.filter (fun o => negb (ob_select o)) (objects w) in
    let act := a ← active w; o ← find_object a kept; Some (ob_name o) in
    with_active act (with_objects kept w)).

(** An import adds the file's objects to the scene, selected, after
    deselecting what was there; a missing or unreadable file is an error. *)
Definition import_with (read : File -> option (list (Imported Mesh)))
    (filepath : string) : Stmt unit :=
  fs <- gets files ;;
  f <- or_raise RuntimeError (fs !! filepath) ;;
  imps <- or_raise RuntimeError (read f) ;;
  modify (fun w =>
    with_objects ((set_select false <$> objects w) ++ (new_object <$> imps)) w).

(** [bpy.ops.import_scene.obj(filepath=...)] *)
Definition import_scene_obj (filepath : string) : Stmt unit :=
  emit (EvImportObj filepath) ;;;
  import_with read_obj filepath.

(** [bpy.ops.import_mesh.ply(filepath=...)] *)
Definition import_mesh_ply (filepath : string) : Stmt unit :=
  emit (EvImportPly filepath) ;;;
  import_with read_ply filepath.

(** [bpy.ops.export_scene.obj(filepath=...)]: writes the whole scene. *)
Definition export_scene_obj (filepath : string) : Stmt unit :=
  emit (EvExportObj filepath) ;;;
  modify (fun w => with_files (<[filepath := write_obj (objects w)]> (files w)) w).

(** [bpy.ops.object.modifier_add(type=...)]: a new modifier with default
    settings at the end of the active object's stack. *)
Definition object_modifier_add (ty : modifier_type) : Stmt unit :=
  emit (EvModifierAdd ty) ;;;
  o <- active_object ;;
  let used := mod_name <$> modifiers o in
  let name := fresh_name (length used) 0 (modifier_base_name ty) used in
  update (ob_name o) (set_modifiers (modifiers o ++ [new_modifier name ty])).

(** [bpy.ops.object.modifier_apply(apply_as=..., modifier=...)]: evaluates
    the named modifier of the active object into its mesh data (or into a
    shape key, which leaves the data as it is) and takes it off the stack. *)
Definition object_modifier_apply (apply_as : apply_target) (modifier : string)
  : Stmt unit :=
  target <- gets (fun w => a ← active w; find_object a (objects w)) ;;
  let found := o ← target; find_modifier modifier (modifiers o) in
  emit (EvModifierApply apply_as modifier found) ;;;
  o <- or_raise RuntimeError target ;;
  m <- or_raise RuntimeError found ;;
  let d := if apply_as is DATA then eval_modifier m (ob_data o) else ob_data o in
  update (ob_name o)
    (fun o => set_modifiers (remove_modifier modifier (modifiers o)) (set_data d o)).

(** [bpy.ops.object.mode_set(mode=...)] *)
Definition object_mode_set (m : object_mode) : Stmt unit :=
  emit (EvModeSet m) ;;;
  _ <- active_object ;;
  modify (with_mode m).

(** [bpy.ops.mesh.select_all(action=...)], on the mesh being edited. *)
Definition mesh_select_all (action : select_action) : Stmt unit :=
  emit (EvMeshSelectAll action) ;;;
  o <- active_object ;;
  update (ob_name o) (set_data (select_faces action (ob_data o))).

(** [bpy.ops.uv.smart_project()] *)
Definition uv_smart_project : Stmt unit :=
  emit EvSmartProject ;;;
  o <- active_object ;;
  update (ob_name o) (set_data (smart_project (ob_data o))).

End WithHost.
End ops.
End bpy.

(* ===================================================================== *)
(** ** Blender_Core.py *)

Module Blender_Core.
Section WithHost.
Context `{Host}.

Definition print_out (lineToWrite : string) : Stmt unit :=
  sys.stdout_write (lineToWrite ++ nl) ;;;
  sys.stdout_flush.

Definition print_err (errorLine : string) : Stmt unit :=
  sys.stderr_write (errorLine ++ nl) ;;;
  sys.stderr_flush.

Definition delete_all_on_start : Stmt unit :=
  n <- bpy.data_objects_len ;;
  if Nat.ltb 0 n then
    bpy.ops.object_select_all SELECT ;;;
    bpy.ops.object_delete false
  else ret tt.

Definition FACE_COUNT_OUTPUT : string := "FACE_COUNT_OUTPUT:".

Definition print_face_count (face_count : nat) : Stmt unit :=
  print_out (FACE_COUNT_OUTPUT ++ str face_count).

End WithHost.
End Blender_Core.
Import Blender_Core.

(** Every script starts with
    [sys.path.append(sys.argv[sys.argv.index("--") + 1:][0])], and every
    [main] with [argv = sys.argv[sys.argv.index("--") + 1:]]. *)
Section Arguments.
Context `{Host}.

Definition connector_args : Stmt (list string) :=
  sys_argv <- sys.argv ;;
  i <- sys.list_index "--" sys_argv ;;
  ret (slice_from (i + 1) sys_argv).

Definition append_module_path : Stmt unit :=
  args <- connector_args ;;
  dir <- sys.getitem args 0 ;;
  sys.path_append dir.

End Arguments.

(* ===================================================================== *)
(** ** Blender_CheckOBJMeshInfo.py (Inspect) *)

Module Blender_CheckOBJMeshInfo.
Section WithHost.
Context `{Host}.

Definition main : Stmt unit :=
  argv <- connector_args ;;
  input_file_path <- sys.getitem argv 1 ;;
  delete_all_on_start ;;;
  bpy.ops.import_scene_obj input_file_path ;;;
  ob <- bpy.data_objects_getitem 0 ;;
  face_count <- bpy.polygons_len ob ;;
  print_face_count face_count ;;;
  print_out ("Mesh currently has " ++ str face_count ++ " faces.") ;;;
  sys.exit 0.

Definition script : Stmt unit :=
  append_module_path ;;;
  main.

End WithHost.
End Blender_CheckOBJMeshInfo.

(* ===================================================================== *)
(** ** Blender_ConvertPLYtoOBJ.py (Convert) *)

Module Blender_ConvertPLYtoOBJ.
Section WithHost.
Context `{Host}.

Definition main : Stmt unit :=
  argv <- connector_args ;;
  input_file_path <- sys.getitem argv 1 ;;
  output_file_path <- sys.getitem argv 2 ;;
  delete_all_on_start ;;;
  print_out ("Importing mesh from " ++ input_file_path ++ ".") ;;;
  bpy.ops.import_mesh_ply input_file_path ;;;
  global_obj <- bpy.data_objects_getitem 0 ;;
  face_count <- bpy.polygons_len global_obj ;;
  print_face_count face_count ;;;
  print_out "Rotating mesh." ;;;
  bpy.set_rotation_euler global_obj 0 (radians (-90)) ;;;
  bpy.set_rotation_euler global_obj 2 (radians 180) ;;;
  print_out ("Exporting mesh to " ++ output_file_path ++ ".") ;;;
  bpy.ops.export_scene_obj output_file_path ;;;
  print_out ("Finished operation. Mesh can be found at " ++ output_file_path ++ ".") ;;;
  sys.exit 0.

Definition script : Stmt unit :=
  append_module_path ;;;
  main.

End WithHost.
End Blender_ConvertPLYtoOBJ.

(* ===================================================================== *)
(** ** Blender_SimplifyOBJ.py (Simplify) *)

Module Blender_SimplifyOBJ.
Section WithHost.
Context `{Host}.

Definition main : Stmt unit :=
  argv <- connector_args ;;
  input_file_path <- sys.getitem argv 1 ;;
  output_file_path <- sys.getitem argv 2 ;;
  delete_all_on_start ;;;
  bpy.ops.import_scene_obj input_file_path ;;;
  global_obj <- bpy.data_objects_getitem 0 ;;
  bpy.set_active global_obj ;;;
  original_face_count <- bpy.polygons_len global_obj ;;
  bpy.ops.object_modifier_add DECIMATE ;;;
  decimate_modifier <- bpy.modifiers_getitem global_obj 0 ;;
  name <- bpy.modifier_name global_obj decimate_modifier ;;
  bpy.set_decimate_type global_obj name DISSOLVE ;;;
  name <- bpy.modifier_name global_obj decimate_modifier ;;
  bpy.set_angle_limit global_obj name 0.0872665 ;;;
  name <- bpy.modifier_name global_obj decimate_modifier ;;
  bpy.ops.object_modifier_apply DATA name ;;;
  bpy.ops.object_modifier_add TRIANGULATE ;;;
  triangulate_modifier <- bpy.modifiers_getitem global_obj 0 ;;
  name <- bpy.modifier_name global_obj triangulate_modifier ;;
  bpy.ops.object_modifier_apply DATA name ;;;
  new_face_count <- bpy.polygons_len global_obj ;;
  print_out ("Decimated mesh from " ++ str original_face_count ++ " to "
             ++ str new_face_count ++ " faces.") ;;;
  print_face_count new_face_count ;;;
  bpy.ops.export_scene_obj output_file_path ;;;
  print_out ("Finished operation. Mesh can be found at " ++ output_file_path ++ ".") ;;;
  sys.exit 0.

Definition script : Stmt unit :=
  append_module_path ;;;
  main.

End WithHost.
End Blender_SimplifyOBJ.

(* ===================================================================== *)
(** ** Blender_SmartUVProjectOBJ.py (UV-Unwrap) *)

Module Blender_SmartUVProjectOBJ.
Section WithHost.
Context `{Host}.

Definition main : Stmt unit :=
  argv <- connector_args ;;
  input_file_path <- sys.getitem argv 1 ;;
  output_file_path <- sys.getitem argv 2 ;;
  delete_all_on_start ;;;
  print_out ("Importing mesh from " ++ input_file_path ++ ".") ;;;
  bpy.ops.import_scene_obj input_file_path ;;;
  obj <- bpy.data_objects_getitem 0 ;;
  bpy.set_active obj ;;;
  bpy.ops.object_mode_set EDIT ;;;
  bpy.ops.mesh_select_all SELECT ;;;
  print_out "Applying the Smart UV Project algorithm." ;;;
  bpy.ops.uv_smart_project ;;;
  bpy.ops.object_mode_set OBJECT ;;;
  print_out ("Exporting mesh to " ++ output_file_path ++ ".") ;;;
  bpy.ops.export_scene_obj output_file_path ;;;
  sys.exit 0.

Definition script : Stmt unit :=
  append_module_path ;;;
  main.

End WithHost.
End Blender_SmartUVProjectOBJ.

(* ===================================================================== *)
(** ** A small concrete host, to run the scripts on

    Meshes are lists of faces, a face is the list of its vertex indices; a
    mesh file lists named meshes.  Dissolve-decimation drops degenerate
    faces and triangulation fans every face from its first vertex. *)

Module Example.

Definition fan (face : list nat) : list (list nat) :=
  match face with
  | a :: b :: rest =>
      (fix go (prev : nat) (l : list nat) : list (list nat) :=
         match l with
         | [] => []
         | c :: l' => [a; prev; c] :: go c l'
         end) b rest
  | _ => []
  end.

Definition read_meshes (f : list (string * list (list nat)))
  : option (list (Imported (list (list nat)))) :=
  Some ((fun nm => mkImported nm.1 nm.2 (mkEuler 0 0 0)) <$> f).

Definition host : Host := {|
  Mesh := list (list nat);
  Polygon := list nat;
  File := list (string * list (list nat));
  polygons := fun m => m;
  read_obj := read_meshes;
  read_ply := read_meshes;
  write_obj := fun objs => (fun o => (ob_name o, ob_data o)) <$> objs;
  decimate := fun mode _ m =>
    if mode is DISSOLVE then List.filter (fun f => Nat.leb 3 (length f)) m else m;
  triangulate := fun m => m ≫= fan;
  select_faces := fun _ m => m;
  smart_project := fun m => m;
|}.

(** A cube as six quadrilaterals, and a placeholder object of the kind a
    host session starts with. *)
Definition cube : list (list nat) :=
  [[0; 1; 2; 3]; [4; 5; 6; 7]; [0; 1; 5; 4]; [1; 2; 6; 5]; [2; 3; 7; 6]; [3; 0; 4; 7]].

Definition placeholder : Object (list (list nat)) :=
  mkObject "Cube" [[0; 1; 2]] false (mkEuler 0 0 0) [new_modifier "Decimate" DECIMATE].

Definition disk : gmap string (list (string * list (list nat))) :=
  {[ "in.obj" := [("cube", cube)] ]}.

(** Paths with line feeds in them, the text after the first one being a
    marker line; and a disk that has the mesh file under such a name. *)
Definition input_with_marker : string := "in.obj" ++ nl ++ "FACE_COUNT_OUTPUT:7".
Definition output_with_marker : string :=
  "out" ++ nl ++ "FACE_COUNT_OUTPUT:7" ++ nl ++ "x.obj".
Definition odd_disk : gmap string (list (string * list (list nat))) :=
  {[ input_with_marker := [("cube", cube)] ]}.


Definition start (argv : list string) : @World host :=
  @boot host argv ["/usr/lib/python"] disk [placeholder] (Some "Cube").

End Example.

(* ===================================================================== *)
(** ** Vocabulary of the statements below *)

Section Vocabulary.
Context `{Host}.

(** A run of a script from the state the host starts it in. *)
Definition run (script : Stmt unit) (argv path : list string)
    (fs : gmap string File) (objs : list (Object Mesh)) (act : option string)
  : outcome unit * World :=
  script (boot argv path fs objs act).

(** The run went through to [sys.exit(0)]. *)
Definition exits_ok (r : outcome unit * World) : Prop :=
  r.1 = Raise (SystemExit 0).

Definition face_count (o : Object Mesh) : nat := length (polygons (ob_data o)).

(** The marker line for face count [n], without its line feed. *)
Definition marker (n : nat) : string := FACE_COUNT_OUTPUT ++ str n.

(** The lines of [out] that start with the marker prefix. *)
Definition marker_lines (out : string) : list string :=
  List.filter (String.prefix FACE_COUNT_OUTPUT) (splitlines out).

(** What [delete_all_on_start] does on a scene of [n] objects. *)
Definition reset_events (n : nat) : list event :=
  EvObjectsLen n :: if Nat.ltb 0 n then [EvSelectAll SELECT; EvDelete false] else [].

(** The run stopped on an out-of-range index while reading its arguments
    [post]: nothing written, scene and files as they were, and no step
    beyond (at most) the module path appended to [sys.path]. *)
Definition stopped_in_parsing (post : list string) (fs : gmap string File)
    (objs : list (Object Mesh)) (r : outcome unit * World) : Prop :=
  r.1 = Raise IndexError /\ stdout r.2 = "" /\ stderr r.2 = ""
  /\ files r.2 = fs /\ objects r.2 = objs
  /\ trace r.2 = (if post is mp :: _ then [EvSysPathAppend mp] else []).

Definition with_argv (a : list string) (w : World) : World :=
  mkWorld a (sys_path w) (stdout w) (stderr w) (files w) (objects w) (active w) (mode w) (trace w).

End Vocabulary.

(** Classes of events. *)
Definition is_marker_write (e : event) : bool :=
  if e is EvStdoutWrite s then String.prefix FACE_COUNT_OUTPUT s else false.
Definition is_stdout_write (e : event) : bool :=
  if e is EvStdoutWrite _ then true else false.
Definition is_stderr_write (e : event) : bool :=
  if e is EvStderrWrite _ then true else false.
Definition is_export (e : event) : bool :=
  if e is EvExportObj _ then true else false.
(** Operators that change mesh data. *)
Definition is_mesh_transform (e : event) : bool :=
  match e with
  | EvModifierApply _ _ _ | EvSmartProject => true
  | _ => false
  end.

(** Some event of class [p] comes strictly before some event of class [q]. *)
Fixpoint precedes (p q : event -> bool) (t : list event) : bool :=
  match t with
  | [] => false
  | e :: t' => (p e && existsb q t') || precedes p q t'
  end.



(** The stream made of the given lines, each ended by a line feed. *)
Fixpoint unlines (ls : list string) : string :=
  match ls with
  | [] => ""
  | l :: ls' => l ++ nl ++ unlines ls'
  end.

(** The [k]-th connector argument of an argument vector, if there is one. *)
Definition arg (k : nat) (argv : list string) : option string :=
  i ← index "--" argv; slice_from (i + 1) argv !! k.

(** The [k]-th connector argument, if present, has no line feed in it. *)
Definition arg_on_one_line (k : nat) (argv : list string) : bool :=
  if arg k argv is Some p then no_lf p else true.


(** The before/after line of the Simplify script. *)
Definition is_info_write (e : event) : bool :=
  if e is EvStdoutWrite s then String.prefix "Decimated mesh from " s else false.

(* ===================================================================== *)
(** * Properties *)

(** ** Python helpers *)

Lemma index_first (x : string) (pre post : list string) :
  x ∉ pre -> index x (pre ++ x :: post)%list = Some (length pre).
Proof.
  induction pre as [|a pre IH]; intros Hn; cbn.
  - now rewrite String.eqb_refl.
  - destruct (String.eqb_spec a x) as [->|_].
    + exfalso. apply Hn. left.
    + rewrite IH; [reflexivity|]. intros Hin. apply Hn. now right.
Qed.

Lemma index_Some (x : string) (l : list string) (i : nat) :
  index x l = Some i ->
  exists pre post : list string, l = (pre ++ x :: post)%list /\ (x ∉ pre) /\ i = length pre.
Proof.
  revert i. induction l as [|a l IH]; intros i; cbn; [discriminate|].
  destruct (String.eqb_spec a x) as [->|Hne].
  - intros [= <-]. exists [], l. split_and!; [done| |done]. apply not_elem_of_nil.
  - destruct (index x l) as [j|] eqn:E; cbn; [|discriminate].
    intros [= <-]. destruct (IH j eq_refl) as (pre & post & -> & Hn & ->).
    exists (a :: pre), post. split_and!; [done| |done].
    rewrite elem_of_cons. intros [->|?]; done.
Qed.

Lemma slice_after (x : string) (pre post : list string) :
  slice_from (length pre + 1) (pre ++ x :: post)%list = post.
Proof.
  unfold slice_from. rewrite Nat.add_1_r.
  induction pre as [|a pre IH]; cbn; [reflexivity|exact IH].
Qed.

Lemma splitlines_line (s rest : string) :
  no_lf s = true -> splitlines (s ++ nl ++ rest) = s :: splitlines rest.
Proof.
  induction s as [|c s IH]; intros Hs; [reflexivity|].
  cbn [no_lf] in Hs. apply andb_true_iff in Hs as [Hc Hs]. apply negb_true_iff in Hc.
  change (String c s ++ nl ++ rest) with (String c (s ++ nl ++ rest)).
  cbn [splitlines]. rewrite Hc, (IH Hs). reflexivity.
Qed.

Lemma no_lf_app (s t : string) : no_lf (s ++ t) = no_lf s && no_lf t.
Proof.
  induction s as [|c s IH]; [reflexivity|].
  change (String c s ++ t) with (String c (s ++ t)).
  cbn [no_lf]. now rewrite IH, andb_assoc.
Qed.

Lemma no_lf_uint (d : Decimal.uint) : no_lf (NilEmpty.string_of_uint d) = true.
Proof. induction d; cbn; auto. Qed.

Lemma no_lf_str (n : nat) : no_lf (str n) = true.
Proof.
  unfold str, NilZero.string_of_uint.
  destruct (Nat.to_uint n); try reflexivity; apply (no_lf_uint (_ _)).
Qed.

Lemma prefix_app (p s : string) : String.prefix p (p ++ s) = true.
Proof.
  induction p as [|c p IH]; [now destruct s|].
  change (String c p ++ s) with (String c (p ++ s)). cbn [String.prefix].
  destruct (ascii_dec c c); [exact IH|congruence].
Qed.

Lemma splitlines_unlines (ls : list string) :
  Forall (fun l => no_lf l = true) ls -> splitlines (unlines ls) = ls.
Proof.
  induction 1 as [|l ls Hl _ IH]; [reflexivity|].
  cbn [unlines]. now rewrite splitlines_line, IH.
Qed.

Lemma arg_at (k : nat) (pre post : list string) :
  "--" ∉ pre -> arg k (pre ++ "--" :: post)%list = post !! k.
Proof.
  intros Hpre. unfold arg. rewrite index_first by done. cbn.
  now rewrite slice_after.
Qed.

Lemma prefix_marker (n : nat) : String.prefix FACE_COUNT_OUTPUT (marker n) = true.
Proof. apply prefix_app. Qed.

Lemma append_assoc (a b c : string) : (a ++ b) ++ c = a ++ b ++ c.
Proof.
  induction a as [|x a IH]; [reflexivity|].
  change (String x a ++ b) with (String x (a ++ b)).
  change (String x (a ++ b) ++ c) with (String x ((a ++ b) ++ c)).
  now rewrite IH.
Qed.

Lemma prefix_marker_nl (n : nat) :
  String.prefix FACE_COUNT_OUTPUT (marker n ++ nl) = true.
Proof. unfold marker. rewrite append_assoc. apply prefix_app. Qed.

(** Settle the prefix tests in the goal: the marker by its lemmas, a line
    whose first characters are known by evaluation. *)
Ltac decide_prefixes :=
  repeat first
    [ rewrite prefix_marker
    | rewrite prefix_marker_nl
    | match goal with
      | |- context [String.prefix ?p ?s] =>
          let b := eval cbv in (String.prefix p s) in
          lazymatch b with
          | false => change (String.prefix p s) with false
          | true => change (String.prefix p s) with true
          end
      end ].

Ltac eval_filter :=
  repeat (progress
    (cbn [List.filter app reset_events length Nat.ltb Nat.leb is_marker_write];
     decide_prefixes; cbv iota)).

(** ** Symbolic execution of statements *)

Ltac unfold_stmts :=
  cbv beta iota zeta delta
    [run bind ret raise gets modify emit or_raise log
     with_path with_stdout with_stderr with_files with_objects with_active with_mode
     with_argv boot
     sys_argv sys_path stdout stderr files objects active mode trace
     sys.argv sys.path_append sys.stdout_write sys.stdout_flush sys.stderr_write
     sys.stderr_flush sys.exit sys.list_index sys.getitem
     bpy.active_object bpy.deref bpy.update bpy.data_objects_len bpy.data_objects_getitem
     bpy.polygons_len bpy.set_active bpy.set_rotation_euler bpy.modifiers_getitem
     bpy.modifier_name bpy.set_field bpy.set_decimate_type bpy.set_angle_limit
     bpy.ops.object_select_all bpy.ops.object_delete bpy.ops.import_with
     bpy.ops.import_scene_obj bpy.ops.import_mesh_ply bpy.ops.export_scene_obj
     bpy.ops.object_modifier_add bpy.ops.object_modifier_apply bpy.ops.object_mode_set
     bpy.ops.mesh_select_all bpy.ops.uv_smart_project
     print_out print_err print_face_count append_module_path
     Blender_CheckOBJMeshInfo.script Blender_CheckOBJMeshInfo.main
     Blender_ConvertPLYtoOBJ.script Blender_ConvertPLYtoOBJ.main
     Blender_SimplifyOBJ.script Blender_SimplifyOBJ.main
     Blender_SmartUVProjectOBJ.script Blender_SmartUVProjectOBJ.main].

Ltac fold_data :=
  cbn [sys_argv sys_path stdout stderr files objects active mode trace
       ob_name ob_data ob_select rotation_euler modifiers
       mod_name mod_type decimate_type angle_limit imp_name imp_data imp_rotation
       bpy.set_select bpy.set_data bpy.set_rotation bpy.set_modifiers bpy.new_object
       bpy.find_object bpy.update_object bpy.find_modifier bpy.update_modifier
       bpy.remove_modifier bpy.eval_modifier euler_set euler_x euler_y euler_z
       new_modifier modifier_base_name fresh_name
       fst snd lookup list_lookup fmap list_fmap app length Nat.ltb Nat.leb
       List.find List.filter negb mbind option_bind
       String.eqb Ascii.eqb Bool.eqb].

Ltac exec := repeat (progress (unfold_stmts; fold_data)).

Section Execution.
Context `{Host}.

Lemma connector_args_run (pre post : list string) (w : World) :
  sys_argv w = (pre ++ "--" :: post)%list -> "--" ∉ pre ->
  connector_args w = (Return post, w).
Proof.
  intros E Hn. destruct w as [a p so se fs objs act m tr].
  cbn [sys_argv] in E. subst a. unfold connector_args. exec.
  rewrite index_first by done. exec. now rewrite slice_after.
Qed.

Lemma connector_args_no_separator (w : World) :
  index "--" (sys_argv w) = None -> connector_args w = (Raise ValueError, w).
Proof.
  intros E. destruct w as [a p so se fs objs act m tr].
  cbn [sys_argv] in E. unfold connector_args. exec. now rewrite E.
Qed.

Lemma filter_selected (objs : list (Object Mesh)) :
  List.filter (fun o => negb (ob_select o))
              (list_fmap _ _ (bpy.set_select true) objs) = [].
Proof. induction objs as [|o objs IH]; cbn; [reflexivity|exact IH]. Qed.

Lemma delete_all_on_start_run (w : World) :
  delete_all_on_start w =
  (Return tt,
   mkWorld (sys_argv w) (sys_path w) (stdout w) (stderr w) (files w) []
           (if objects w is [] then active w else None) (mode w)
           (trace w ++ reset_events (length (objects w)))).
Proof.
  unfold delete_all_on_start, reset_events.
  destruct w as [a p so se fs objs act m tr], objs as [|o objs].
  - reflexivity.
  - exec. rewrite filter_selected, <- !app_assoc. now destruct act.
Qed.

End Execution.

(** One step of a run: the two shared prefixes by their lemmas, a lookup
    of an object under its own name, then evaluation. *)
Ltac step :=
  first
    [ erewrite connector_args_run by (reflexivity || done)
    | rewrite delete_all_on_start_run
    | rewrite String.eqb_refl
    | progress exec ].

Ltac steps := repeat step.

(** ** What a run that reaches [sys.exit(0)] says about its inputs *)

(** Case analysis on the argument vector of a run: no separator, or the
    arguments [post] after its first occurrence. *)
Ltac split_argv argv pre post Hpre :=
  let k := fresh "k" in
  let Hidx := fresh "Hidx" in
  destruct (index "--" argv) as [k|] eqn:Hidx;
  [ apply index_Some in Hidx as (pre & post & -> & Hpre & ->)
  | unfold run; exec; rewrite connector_args_no_separator by exact Hidx; exec ].

Ltac failed := try (intros; exfalso; discriminate).

Section Success.
Context `{Host}.

Lemma inspect_exits_ok (argv path : list string) fs objs act :
  exits_ok (run Blender_CheckOBJMeshInfo.script argv path fs objs act) ->
  exists (pre : list string) mp inp (rest : list string) f i imps,
    argv = (pre ++ "--" :: mp :: inp :: rest)%list /\ ("--" ∉ pre)
    /\ fs !! inp = Some f /\ read_obj f = Some (i :: imps).
Proof.
  unfold exits_ok. split_argv argv pre post Hpre; failed.
  unfold run. destruct post as [|mp [|inp rest]]; steps; failed.
  destruct (fs !! inp) as [f|] eqn:Hf; steps; failed.
  destruct (read_obj f) as [[|i imps]|] eqn:Hr; steps; failed.
  intros _. exists pre, mp, inp, rest, f, i, imps. done.
Qed.

Lemma convert_exits_ok (argv path : list string) fs objs act :
  exits_ok (run Blender_ConvertPLYtoOBJ.script argv path fs objs act) ->
  exists (pre : list string) mp inp outp (rest : list string) f i imps,
    argv = (pre ++ "--" :: mp :: inp :: outp :: rest)%list /\ ("--" ∉ pre)
    /\ fs !! inp = Some f /\ read_ply f = Some (i :: imps).
Proof.
  unfold exits_ok. split_argv argv pre post Hpre; failed.
  unfold run. destruct post as [|mp [|inp [|outp rest]]]; steps; failed.
  destruct (fs !! inp) as [f|] eqn:Hf; steps; failed.
  destruct (read_ply f) as [[|i imps]|] eqn:Hr; steps; failed.
  intros _. exists pre, mp, inp, outp, rest, f, i, imps. done.
Qed.

Lemma simplify_exits_ok (argv path : list string) fs objs act :
  exits_ok (run Blender_SimplifyOBJ.script argv path fs objs act) ->
  exists (pre : list string) mp inp outp (rest : list string) f i imps,
    argv = (pre ++ "--" :: mp :: inp :: outp :: rest)%list /\ ("--" ∉ pre)
    /\ fs !! inp = Some f /\ read_obj f = Some (i :: imps).
Proof.
  unfold exits_ok. split_argv argv pre post Hpre; failed.
  unfold run. destruct post as [|mp [|inp [|outp rest]]]; steps; failed.
  destruct (fs !! inp) as [f|] eqn:Hf; steps; failed.
  destruct (read_obj f) as [[|i imps]|] eqn:Hr; steps; failed.
  intros _. exists pre, mp, inp, outp, rest, f, i, imps. done.
Qed.

Lemma uv_unwrap_exits_ok (argv path : list string) fs objs act :
  exits_ok (run Blender_SmartUVProjectOBJ.script argv path fs objs act) ->
  exists (pre : list string) mp inp outp (rest : list string) f i imps,
    argv = (pre ++ "--" :: mp :: inp :: outp :: rest)%list /\ ("--" ∉ pre)
    /\ fs !! inp = Some f /\ read_obj f = Some (i :: imps).
Proof.
  unfold exits_ok. split_argv argv pre post Hpre; failed.
  unfold run. destruct post as [|mp [|inp [|outp rest]]]; steps; failed.
  destruct (fs !! inp) as [f|] eqn:Hf; steps; failed.
  destruct (read_obj f) as [[|i imps]|] eqn:Hr; steps; failed.
  intros _. exists pre, mp, inp, outp, rest, f, i, imps. done.
Qed.

End Success.

(* ===================================================================== *)
(** ** Host session bootstrap *)


(* ===================================================================== *)
(** ** Invocation arguments *)

(** Case analysis on every run of a script with an import step [read]:
    how many arguments, whether the input file is there and readable,
    whether it holds an object, whether the scene started empty. *)
Ltac all_runs read post fs objs :=
  unfold run;
  let mp := fresh "mp" in
  let inp := fresh "inp" in
  let outp := fresh "outp" in
  let rest := fresh "rest" in
  destruct post as [|mp [|inp [|outp rest]]]; steps;
  try (let f := fresh "f" in
       destruct (fs !! inp) as [f|]; steps;
       try (destruct (read f) as [[|? ?]|]; steps));
  destruct objs.

Ltac positional_case :=
  cbn [snd fst trace]; rewrite <- ?app_assoc;
  repeat first [ apply Forall_nil_2 | apply Forall_cons_2 | apply Forall_app_2 ];
  cbn; try done.


Ltac not_in_list :=
  let Hin := fresh "Hin" in
  intros Hin;
  repeat (apply elem_of_cons in Hin as [Hin|Hin]; [discriminate|]);
  now apply elem_of_nil in Hin.

Section Arguments_facts.
Context `{Host}.


End Arguments_facts.

(** C7.  When fewer arguments follow the separator than a script reads
    (two for Inspect, three for the others), the run ends with
    [IndexError] while the arguments are read: nothing has been written to
    either stream, the scene and the files are as they were, and no host
    step (reset, import, transform, export) has run. *)
Theorem short_arguments_stop_in_parsing `{Host}
    (pre post path : list string) fs objs act :
  "--" ∉ pre ->
  let argv := (pre ++ "--" :: post)%list in
  (length post < 2 ->
     stopped_in_parsing post fs objs
       (run Blender_CheckOBJMeshInfo.script argv path fs objs act))
  /\ (length post < 3 ->
     stopped_in_parsing post fs objs
       (run Blender_ConvertPLYtoOBJ.script argv path fs objs act)
     /\ stopped_in_parsing post fs objs
       (run Blender_SimplifyOBJ.script argv path fs objs act)
     /\ stopped_in_parsing post fs objs
       (run Blender_SmartUVProjectOBJ.script argv path fs objs act)).
Proof.
  intros Hpre argv. subst argv. unfold stopped_in_parsing, run.
  split; intros Hlen.
  - destruct post as [|mp [|inp rest]]; [| |cbn in Hlen; lia]; steps; done.
  - destruct post as [|mp [|inp [|outp rest]]]; [| | |cbn in Hlen; lia];
      split_and!; steps; done.
Qed.

Lemma short_arguments_stop_in_parsing_witness :
  ("--" ∉ ["blender"; "-b"; "-P"; "Blender_SimplifyOBJ.py"])
  /\ (run (H := Example.host) Blender_SimplifyOBJ.script
        ["blender"; "-b"; "-P"; "Blender_SimplifyOBJ.py"; "--"; "/mods"; "in.obj"]
        [] Example.disk [Example.placeholder] None).1 = Raise IndexError.
Proof.
  assert (Hpre : "--" ∉ ["blender"; "-b"; "-P"; "Blender_SimplifyOBJ.py"])
    by not_in_list.
  split; [exact Hpre|].
  refine (proj1 (proj1 (proj2 (proj2
    (short_arguments_stop_in_parsing (H := Example.host) _ ["/mods"; "in.obj"]
       [] Example.disk [Example.placeholder] None Hpre) _)))).
  cbn. lia.
Defined.


(* ===================================================================== *)
(** ** The Inspect pipeline *)

Ltac same_stream :=
  unfold marker; cbn [unlines]; rewrite ?append_assoc; reflexivity.

(** C8.  No run of the Inspect script, whatever its outcome, calls an
    export or changes the file system, and none writes to standard error;
    a run that exits with 0 has written exactly the marker line and the
    information line, for the face count of object 0.  The script reads
    nothing after its second argument: dropping what follows changes
    neither the outcome nor anything in the final state but [sys.argv]
    itself. *)
Theorem inspect_writes_no_file `{Host} (argv path : list string) fs objs act :
  let r := run Blender_CheckOBJMeshInfo.script argv path fs objs act in
  files r.2 = fs
  /\ stderr r.2 = ""
  /\ Forall (fun e => is_export e = false) (trace r.2)
  /\ (exits_ok r -> exists o,
        objects r.2 !! 0 = Some o
        /\ stdout r.2 =
           unlines [marker (face_count o);
                    "Mesh currently has " ++ str (face_count o) ++ " faces."])
  /\ (forall (pre : list string) mp inp (rest : list string),
        "--" ∉ pre ->
        let r1 := run Blender_CheckOBJMeshInfo.script
                    (pre ++ "--" :: mp :: inp :: rest)%list path fs objs act in
        let r0 := run Blender_CheckOBJMeshInfo.script
                    (pre ++ ["--"; mp; inp])%list path fs objs act in
        r1.1 = r0.1 /\ with_argv [] r1.2 = with_argv [] r0.2).
Proof.
  cbv zeta. split_and!.
  - split_argv argv pre post Hpre; [|done]. all_runs read_obj post fs objs; done.
  - split_argv argv pre post Hpre; [|done]. all_runs read_obj post fs objs; done.
  - split_argv argv pre post Hpre; [|cbn; constructor].
    all_runs read_obj post fs objs; positional_case.
  - unfold exits_ok.
    split_argv argv pre post Hpre; failed.
    all_runs read_obj post fs objs; cbn [fst snd objects stdout]; failed;
      intros _; eexists; (split; [reflexivity|]); unfold face_count;
      cbn [bpy.new_object ob_data]; same_stream.
  - intros pre mp inp rest Hpre. unfold run. steps.
    destruct (fs !! inp) as [f|]; steps; [|done].
    destruct (read_obj f) as [[|i imps]|]; steps; done.
Qed.

Lemma inspect_writes_no_file_witness :
  let r := run (H := Example.host) Blender_CheckOBJMeshInfo.script
             ["blender"; "-b"; "--"; "/mods"; "in.obj"; "unused.obj"]
             [] Example.disk [Example.placeholder] None in
  exits_ok r
  /\ files r.2 = Example.disk
  /\ stdout r.2 = unlines ["FACE_COUNT_OUTPUT:6"; "Mesh currently has 6 faces."].
Proof.
  cbv zeta.
  pose proof (inspect_writes_no_file (H := Example.host)
                ["blender"; "-b"; "--"; "/mods"; "in.obj"; "unused.obj"]
                [] Example.disk [Example.placeholder] None)
    as (Hfiles & _ & _ & Hout & _).
  assert (Hok : exits_ok (run (H := Example.host) Blender_CheckOBJMeshInfo.script
             ["blender"; "-b"; "--"; "/mods"; "in.obj"; "unused.obj"]
             [] Example.disk [Example.placeholder] None)) by reflexivity.
  split_and!; [exact Hok|exact Hfiles|].
  destruct (Hout Hok) as (o & Ho & ->). injection Ho as <-. reflexivity.
Defined.



(* ===================================================================== *)
(** ** The Simplify pipeline *)

Ltac success_run Hinv Hok :=
  let pre := fresh "pre" in
  let mp := fresh "mp" in
  let inp := fresh "inp" in
  let outp := fresh "outp" in
  let rest := fresh "rest" in
  let f := fresh "f" in
  let i := fresh "i" in
  let imps := fresh "imps" in
  let Hpre := fresh "Hpre" in
  let Hf := fresh "Hf" in
  let Hr := fresh "Hr" in
  destruct (Hinv _ _ _ _ _ Hok)
    as (pre & mp & inp & outp & rest & f & i & imps & -> & Hpre & Hf & Hr);
  clear Hok; unfold run; steps; rewrite Hf; steps; rewrite Hr; steps;
  cbn [fst snd]; rewrite <- ?app_assoc; cbn [app].



(** [tr = ?t0 ++ suffix], for a list [tr] given in full: [?t0] is what
    comes before the suffix. *)
Ltac ends_with :=
  lazymatch goal with
  | |- ?tr = (?t0 ++ ?suf)%list =>
      let k := eval cbv in (length tr - length suf) in
      unify t0 (take k tr); cbn [take]; reflexivity
  end.



(** C3, as stated, fails: on the example host the Simplify script exits
    with 0 and writes its before/after line before the marker line; no
    marker write comes before that line. *)
Lemma simplify_marker_first_counterexample :
  let r := run (H := Example.host) Blender_SimplifyOBJ.script
             ["blender"; "-b"; "--"; "/mods"; "in.obj"; "out.obj"]
             [] Example.disk [Example.placeholder] None in
  exits_ok r
  /\ precedes is_marker_write is_info_write (trace r.2) = false
  /\ precedes is_info_write is_marker_write (trace r.2) = true
  /\ splitlines (stdout r.2)
     = ["Decimated mesh from 6 to 12 faces."; "FACE_COUNT_OUTPUT:12";
        "Finished operation. Mesh can be found at out.obj."].
Proof. cbv zeta. split_and!; vm_compute; reflexivity. Qed.

(** C3, amended.  A run of the Simplify script that exits with 0 ends with
    these steps, in this order and with nothing between them: the new face
    count is read, the before/after line is written, then the marker line
    for the new count, then the mesh is exported to the output path, then
    the closing line is written.  Nothing was written to standard output
    and nothing exported before the before/after line. *)
Theorem simplify_reports_info_then_marker_then_exports `{Host}
    (argv path : list string) fs objs act :
  let r := run Blender_SimplifyOBJ.script argv path fs objs act in
  exits_ok r ->
  exists t0 ob n0 n outp,
    arg 2 argv = Some outp
    /\ trace r.2 =
       (t0 ++ [EvPolygonsLen ob n;
               EvStdoutWrite (("Decimated mesh from " ++ str n0 ++ " to "
                               ++ str n ++ " faces.") ++ nl);
               EvStdoutFlush;
               EvStdoutWrite (marker n ++ nl);
               EvStdoutFlush;
               EvExportObj outp;
               EvStdoutWrite (("Finished operation. Mesh can be found at "
                               ++ outp ++ ".") ++ nl);
               EvStdoutFlush])%list
    /\ forallb (fun e => negb (is_stdout_write e || is_export e)) t0 = true.
Proof.
  cbv zeta. intros Hok. success_run simplify_exits_ok Hok.
  rewrite arg_at by done.
  destruct objs; do 5 eexists; (split; [reflexivity|]); (split; [ends_with|]);
    eval_filter; reflexivity.
Qed.

Lemma simplify_reports_info_then_marker_then_exports_witness :
  let r := run (H := Example.host) Blender_SimplifyOBJ.script
             ["blender"; "-b"; "--"; "/mods"; "in.obj"; "out.obj"]
             [] Example.disk [Example.placeholder] None in
  exits_ok r
  /\ exists t0 ob n0 n outp,
    arg 2 ["blender"; "-b"; "--"; "/mods"; "in.obj"; "out.obj"] = Some outp
    /\ trace r.2 =
       (t0 ++ [EvPolygonsLen ob n;
               EvStdoutWrite (("Decimated mesh from " ++ str n0 ++ " to "
                               ++ str n ++ " faces.") ++ nl);
               EvStdoutFlush;
               EvStdoutWrite (marker n ++ nl);
               EvStdoutFlush;
               EvExportObj outp;
               EvStdoutWrite (("Finished operation. Mesh can be found at "
                               ++ outp ++ ".") ++ nl);
               EvStdoutFlush])%list
    /\ forallb (fun e => negb (is_stdout_write e || is_export e)) t0 = true.
Proof.
  cbv zeta.
  assert (Hok : exits_ok (run (H := Example.host) Blender_SimplifyOBJ.script
             ["blender"; "-b"; "--"; "/mods"; "in.obj"; "out.obj"]
             [] Example.disk [Example.placeholder] None)) by reflexivity.
  split; [exact Hok|].
  exact (simplify_reports_info_then_marker_then_exports (H := Example.host)
           _ _ _ _ _ Hok).
Defined.

(* ===================================================================== *)
(** ** The Convert pipeline *)



(* ===================================================================== *)
(** ** The face-count marker on standard output *)

(** C1, as stated, fails: paths are copied into progress lines, and a path
    may hold line feeds.  On the example host the UV-Unwrap script, given
    an input file whose name continues after a line feed with marker text,
    exits with 0 and its standard output has a line with the marker
    prefix; the Convert script, given such an output path, exits with 0
    and its standard output has three lines of the marker form. *)
Lemma marker_line_counterexample :
  let unwrap := run (H := Example.host) Blender_SmartUVProjectOBJ.script
                  ["blender"; "-b"; "--"; "/mods"; Example.input_with_marker; "out.obj"]
                  [] Example.odd_disk [] None in
  let convert := run (H := Example.host) Blender_ConvertPLYtoOBJ.script
                   ["blender"; "-b"; "--"; "/mods"; "in.obj"; Example.output_with_marker]
                   [] Example.disk [] None in
  exits_ok unwrap
  /\ marker_lines (stdout unwrap.2) = ["FACE_COUNT_OUTPUT:7."]
  /\ exits_ok convert
  /\ marker_lines (stdout convert.2)
     = [marker 6; marker 7; marker 7].
Proof. cbv zeta. split_and!; vm_compute; reflexivity. Qed.

Ltac fold_marker :=
  repeat match goal with
         | |- context [FACE_COUNT_OUTPUT ++ str ?n] =>
             change (FACE_COUNT_OUTPUT ++ str n) with (marker n)
         end.

(** Standard output as the lines the script printed. *)
Ltac printed lines :=
  unfold marker_lines; cbn [stdout];
  lazymatch goal with
  | |- context [splitlines ?s] =>
      replace s with (unlines lines) by same_stream
  end;
  rewrite splitlines_unlines
    by (repeat (apply Forall_cons_2;
                [ unfold marker; rewrite ?no_lf_app, ?no_lf_str;
                  repeat match goal with E : no_lf _ = true |- _ => rewrite E end;
                  reflexivity | ]);
        apply Forall_nil_2).

(** C1, amended.  A run of the Inspect, Convert or Simplify script that
    exits with 0 has issued exactly one write of a marker line, for the
    face count of object 0, and a run of the UV-Unwrap script none.  On
    standard output this is the only line with the marker prefix (for
    UV-Unwrap: there is none) provided the paths the script prints (input
    and output for Convert and UV-Unwrap, output for Simplify, none for
    Inspect) hold no line feed. *)
Theorem marker_line_written_once `{Host} (argv path : list string) fs objs act :
  let inspect := run Blender_CheckOBJMeshInfo.script argv path fs objs act in
  let convert := run Blender_ConvertPLYtoOBJ.script argv path fs objs act in
  let simplify := run Blender_SimplifyOBJ.script argv path fs objs act in
  let unwrap := run Blender_SmartUVProjectOBJ.script argv path fs objs act in
  (exits_ok inspect -> exists o,
     objects inspect.2 !! 0 = Some o
     /\ List.filter is_marker_write (trace inspect.2)
        = [EvStdoutWrite (marker (face_count o) ++ nl)]
     /\ marker_lines (stdout inspect.2) = [marker (face_count o)])
  /\ (exits_ok convert -> exists o,
     objects convert.2 !! 0 = Some o
     /\ List.filter is_marker_write (trace convert.2)
        = [EvStdoutWrite (marker (face_count o) ++ nl)]
     /\ (arg_on_one_line 1 argv = true -> arg_on_one_line 2 argv = true ->
         marker_lines (stdout convert.2) = [marker (face_count o)]))
  /\ (exits_ok simplify -> exists o,
     objects simplify.2 !! 0 = Some o
     /\ List.filter is_marker_write (trace simplify.2)
        = [EvStdoutWrite (marker (face_count o) ++ nl)]
     /\ (arg_on_one_line 2 argv = true ->
         marker_lines (stdout simplify.2) = [marker (face_count o)]))
  /\ (exits_ok unwrap ->
     List.filter is_marker_write (trace unwrap.2) = []
     /\ (arg_on_one_line 1 argv = true -> arg_on_one_line 2 argv = true ->
         marker_lines (stdout unwrap.2) = [])).
Proof.
  cbv zeta. unfold arg_on_one_line. split_and!; intros Hok.
  - destruct (inspect_exits_ok _ _ _ _ _ Hok)
      as (pre & mp & inp & rest & f & i & imps & -> & Hpre & Hf & Hr).
    clear Hok. unfold run. steps. rewrite Hf. steps. rewrite Hr. steps.
    cbn [fst snd]. rewrite <- ?app_assoc. cbn [app].
    eexists. split; [reflexivity|]. unfold face_count. cbn [bpy.new_object ob_data].
    split; [destruct objs; fold_marker; eval_filter; reflexivity|].
    printed [marker (length (polygons (imp_data i)));
             "Mesh currently has " ++ str (length (polygons (imp_data i))) ++ " faces."].
    eval_filter; reflexivity.
  - success_run convert_exits_ok Hok. rewrite !arg_at by done. cbn [lookup list_lookup].
    eexists. split; [reflexivity|]. unfold face_count.
    cbn [bpy.new_object bpy.set_rotation ob_data].
    split; [destruct objs; fold_marker; eval_filter; reflexivity|]. intros Hinp Houtp.
    printed ["Importing mesh from " ++ inp ++ ".";
             marker (length (polygons (imp_data i)));
             "Rotating mesh.";
             "Exporting mesh to " ++ outp ++ ".";
             "Finished operation. Mesh can be found at " ++ outp ++ "."].
    eval_filter; reflexivity.
  - success_run simplify_exits_ok Hok. rewrite !arg_at by done. cbn [lookup list_lookup].
    eexists. split; [reflexivity|]. unfold face_count.
    cbn [bpy.new_object bpy.set_modifiers bpy.set_data ob_data].
    split; [destruct objs; fold_marker; eval_filter; reflexivity|]. intros Houtp.
    printed ["Decimated mesh from " ++ str (length (polygons (imp_data i))) ++ " to "
             ++ str (length (polygons (triangulate
                       (decimate DISSOLVE 0.0872665 (imp_data i))))) ++ " faces.";
             marker (length (polygons (triangulate
                       (decimate DISSOLVE 0.0872665 (imp_data i)))));
             "Finished operation. Mesh can be found at " ++ outp ++ "."].
    eval_filter; reflexivity.
  - success_run uv_unwrap_exits_ok Hok. rewrite !arg_at by done. cbn [lookup list_lookup].
    split; [destruct objs; eval_filter; reflexivity|]. intros Hinp Houtp.
    printed ["Importing mesh from " ++ inp ++ ".";
             "Applying the Smart UV Project algorithm.";
             "Exporting mesh to " ++ outp ++ "."].
    eval_filter; reflexivity.
Qed.

Lemma marker_line_written_once_witness :
  let argv := ["blender"; "-b"; "--"; "/mods"; "in.obj"; "out.obj"] in
  let simplify := run (H := Example.host) Blender_SimplifyOBJ.script
                    argv [] Example.disk [Example.placeholder] None in
  let unwrap := run (H := Example.host) Blender_SmartUVProjectOBJ.script
                  argv [] Example.disk [Example.placeholder] None in
  arg_on_one_line 1 argv = true /\ arg_on_one_line 2 argv = true
  /\ exits_ok simplify /\ exits_ok unwrap
  /\ marker_lines (stdout simplify.2) = [marker 12]
  /\ marker_lines (stdout unwrap.2) = [].
Proof.
  cbv zeta.
  pose proof (marker_line_written_once (H := Example.host)
                ["blender"; "-b"; "--"; "/mods"; "in.obj"; "out.obj"]
                [] Example.disk [Example.placeholder] None)
    as (_ & _ & Hsimplify & Hunwrap).
  assert (H1 : arg_on_one_line 1 ["blender"; "-b"; "--"; "/mods"; "in.obj"; "out.obj"]
               = true) by reflexivity.
  assert (H2 : arg_on_one_line 2 ["blender"; "-b"; "--"; "/mods"; "in.obj"; "out.obj"]
               = true) by reflexivity.
  assert (Hs : exits_ok (run (H := Example.host) Blender_SimplifyOBJ.script
                 ["blender"; "-b"; "--"; "/mods"; "in.obj"; "out.obj"]
                 [] Example.disk [Example.placeholder] None)) by reflexivity.
  assert (Hu : exits_ok (run (H := Example.host) Blender_SmartUVProjectOBJ.script
                 ["blender"; "-b"; "--"; "/mods"; "in.obj"; "out.obj"]
                 [] Example.disk [Example.placeholder] None)) by reflexivity.
  split_and!; [exact H1|exact H2|exact Hs|exact Hu| |].
  - destruct (Hsimplify Hs) as (o & Ho & _ & Hlines).
    rewrite (Hlines H2). vm_compute in Ho. injection Ho as <-. reflexivity.
  - exact (proj2 (Hunwrap Hu) H1 H2).
Defined.

(* ===================================================================== *)
(** * Further properties of the scripts *)

(** ** The result channel *)

Lemma unlines_app (a b : list string) : unlines (a ++ b) = unlines a ++ unlines b.
Proof.
  induction a as [|l a IH]; [reflexivity|].
  cbn [app unlines]. now rewrite IH, !append_assoc.
Qed.

Lemma append_inv_head (p a b : string) : p ++ a = p ++ b -> a = b.
Proof.
  induction p as [|c p IH]; [exact (fun E => E)|].
  change (String c p ++ a) with (String c (p ++ a)).
  change (String c p ++ b) with (String c (p ++ b)).
  intros [= E]. exact (IH E).
Qed.

Lemma length_append (a b : string) :
  String.length (a ++ b) = String.length a + String.length b.
Proof.
  induction a as [|c a IH]; [reflexivity|].
  change (String c a ++ b) with (String c (a ++ b)). cbn [String.length].
  now rewrite IH.
Qed.

Lemma append_inv_tail (a b t : string) :
  String.length a = String.length b -> a ++ t = b ++ t -> a = b.
Proof.
  revert b. induction a as [|c a IH]; intros [|d b] Hlen E; try discriminate.
  - reflexivity.
  - change (String c a ++ t) with (String c (a ++ t)) in E.
    change (String d b ++ t) with (String d (b ++ t)) in E.
    injection E as -> E. injection Hlen as Hlen. now rewrite (IH b Hlen E).
Qed.

Lemma to_uint_not_nil (k : nat) : Nat.to_uint k <> Decimal.Nil.
Proof.
  intros Hk.
  assert (k = 0) as -> by (rewrite <- (DecimalNat.Unsigned.of_to k), Hk; reflexivity).
  discriminate Hk.
Qed.

Lemma str_inj (n m : nat) : str n = str m -> n = m.
Proof.
  unfold str. intros E. apply (f_equal NilZero.uint_of_string) in E.
  rewrite !NilZero.usu in E by apply to_uint_not_nil.
  injection E as E. exact (DecimalNat.Unsigned.to_uint_inj _ _ E).
Qed.

(** X1.  [print_out] never fails and adds exactly one line to standard
    output: when what was written so far is the lines [ls] and the new line
    holds no line feed, standard output afterwards reads as [ls] followed by
    that line.  It writes and flushes, in that order, and leaves standard
    error, the files and the scene alone. *)
Theorem print_out_adds_one_line `{Host} (w : World) (ls : list string) (l : string) :
  stdout w = unlines ls ->
  Forall (fun l => no_lf l = true) ls ->
  no_lf l = true ->
  let r := print_out l w in
  r.1 = Return tt
  /\ splitlines (stdout r.2) = (ls ++ [l])%list
  /\ trace r.2 = (trace w ++ [EvStdoutWrite (l ++ nl); EvStdoutFlush])%list
  /\ stderr r.2 = stderr w /\ files r.2 = files w
  /\ objects r.2 = objects w /\ sys_path r.2 = sys_path w.
Proof.
  intros Hout Hls Hl. destruct w as [a p so se fs objs act m tr].
  cbn [stdout] in Hout. subst so. cbv zeta. exec.
  split_and!; try reflexivity.
  - replace (unlines ls ++ l ++ nl) with (unlines (ls ++ [l]))
      by (rewrite unlines_app; reflexivity).
    apply splitlines_unlines, Forall_app_2; [exact Hls|].
    apply Forall_cons_2; [exact Hl|apply Forall_nil_2].
  - now rewrite <- app_assoc.
Qed.

Lemma print_out_adds_one_line_witness :
  let w := with_stdout (unlines ["Rotating mesh."]) (Example.start []) in
  splitlines (stdout (print_out (H := Example.host) "Exporting mesh to out.obj." w).2)
  = ["Rotating mesh."; "Exporting mesh to out.obj."].
Proof.
  cbv zeta.
  refine (proj1 (proj2
    (print_out_adds_one_line (H := Example.host)
       (with_stdout (unlines ["Rotating mesh."]) (Example.start []))
       ["Rotating mesh."] "Exporting mesh to out.obj." _ _ _))).
  - reflexivity.
  - apply Forall_cons_2; [reflexivity|apply Forall_nil_2].
  - reflexivity.
Defined.

Lemma marker_inj (n m : nat) : marker n = marker m -> n = m.
Proof. unfold marker. intros E. apply str_inj. exact (append_inv_head _ _ _ E). Qed.

(** X2.  The line [print_face_count] writes determines the face count:
    if standard output is the same after printing two counts from the same
    state, the counts are equal. *)
Theorem print_face_count_is_injective `{Host} (w : World) (n m : nat) :
  stdout (print_face_count n w).2 = stdout (print_face_count m w).2 -> n = m.
Proof.
  destruct w as [a p so se fs objs act mo tr]. exec. intros E.
  apply append_inv_head in E. apply marker_inj. unfold marker.
  assert (Hlen : String.length (FACE_COUNT_OUTPUT ++ str n)
                 = String.length (FACE_COUNT_OUTPUT ++ str m)).
  { apply (f_equal String.length) in E.
    rewrite !length_append in E. rewrite !length_append. lia. }
  exact (append_inv_tail _ _ _ Hlen E).
Qed.

Lemma print_face_count_is_injective_witness :
  12 = 12
  /\ stdout (print_face_count (H := Example.host) 12 (Example.start [])).2
     = "FACE_COUNT_OUTPUT:12" ++ nl.
Proof.
  split; [|reflexivity].
  exact (print_face_count_is_injective (H := Example.host)
           (Example.start []) 12 12 eq_refl).
Defined.

(* ===================================================================== *)
(** ** How runs end *)

Lemma index_None (x : string) (l : list string) : x ∉ l -> index x l = None.
Proof.
  induction l as [|a l IH]; intros Hn; [reflexivity|]. cbn.
  destruct (String.eqb_spec a x) as [->|_].
  - exfalso. apply Hn. left.
  - rewrite IH; [reflexivity|]. intros Hin. apply Hn. now right.
Qed.

(** X3.  Without the separator ["--"] in the argument vector every script
    stops on the first statement with [ValueError], before anything has
    happened: nothing appended to [sys.path], nothing written, no host
    step, scene and files as they were. *)
Theorem missing_separator_is_a_value_error `{Host}
    (argv path : list string) fs objs act :
  "--" ∉ argv ->
  let unchanged := (Raise ValueError, boot argv path fs objs act) in
  run Blender_CheckOBJMeshInfo.script argv path fs objs act = unchanged
  /\ run Blender_ConvertPLYtoOBJ.script argv path fs objs act = unchanged
  /\ run Blender_SimplifyOBJ.script argv path fs objs act = unchanged
  /\ run Blender_SmartUVProjectOBJ.script argv path fs objs act = unchanged.
Proof.
  intros Hn. apply index_None in Hn. cbv zeta. unfold run.
  split_and!; exec; rewrite connector_args_no_separator by exact Hn; reflexivity.
Qed.

Lemma missing_separator_is_a_value_error_witness :
  ("--" ∉ ["blender"; "-b"; "/mods"; "in.obj"; "out.obj"])
  /\ (run (H := Example.host) Blender_ConvertPLYtoOBJ.script
        ["blender"; "-b"; "/mods"; "in.obj"; "out.obj"]
        [] Example.disk [Example.placeholder] None).1 = Raise ValueError.
Proof.
  assert (Hn : "--" ∉ ["blender"; "-b"; "/mods"; "in.obj"; "out.obj"]) by not_in_list.
  split; [exact Hn|].
  exact (f_equal fst (proj1 (proj2
    (missing_separator_is_a_value_error (H := Example.host) _ [] Example.disk
       [Example.placeholder] None Hn)))).
Defined.



(** Every run of a script, with the separator or without: the cases of
    [all_runs] after those of the argument vector. *)
Ltac every_run read argv fs objs :=
  let pre := fresh "pre" in
  let post := fresh "post" in
  let Hpre := fresh "Hpre" in
  split_argv argv pre post Hpre;
  [ all_runs read post fs objs | ].




(** X6.  No run of any script, whatever its outcome, writes to standard
    error: [print_err] is imported by every script and called by none. *)
Theorem scripts_never_write_stderr `{Host} (argv path : list string) fs objs act :
  let quiet (r : outcome unit * World) :=
    stderr r.2 = "" /\ List.filter is_stderr_write (trace r.2) = [] in
  quiet (run Blender_CheckOBJMeshInfo.script argv path fs objs act)
  /\ quiet (run Blender_ConvertPLYtoOBJ.script argv path fs objs act)
  /\ quiet (run Blender_SimplifyOBJ.script argv path fs objs act)
  /\ quiet (run Blender_SmartUVProjectOBJ.script argv path fs objs act).
Proof.
  cbv zeta. split_and!.
  1,2: every_run read_obj argv fs objs; cbn [snd stderr trace];
         rewrite <- ?app_assoc; reflexivity.
  1,2: every_run read_ply argv fs objs; cbn [snd stderr trace];
         rewrite <- ?app_assoc; reflexivity.
  1,2: every_run read_obj argv fs objs; cbn [snd stderr trace];
         rewrite <- ?app_assoc; reflexivity.
  1,2: every_run read_obj argv fs objs; cbn [snd stderr trace];
         rewrite <- ?app_assoc; reflexivity.
Qed.

(* ===================================================================== *)
(** ** What a successful run leaves behind *)



(** X8.  A run of the UV-Unwrap script that exits with 0 ends with these
    steps, in this order and with nothing between them: object 0 is made
    the active object, edit mode is entered, all faces are selected, the
    progress line is written, the smart projection is run, edit mode is
    left, the export line is written and the scene is exported to the
    output path.  Nothing was exported before.  The host is back in object
    mode, object 0 is the active object, and the file written is that of
    the unwrapped scene. *)
Theorem uv_unwrap_projects_in_edit_mode `{Host} (argv path : list string) fs objs act :
  let r := run Blender_SmartUVProjectOBJ.script argv path fs objs act in
  exits_ok r ->
  exists t0 ob outp,
    arg 2 argv = Some outp
    /\ trace r.2 =
       (t0 ++ [EvObjectsGetItem 0;
               EvSetActive ob;
               EvModeSet EDIT;
               EvMeshSelectAll SELECT;
               EvStdoutWrite ("Applying the Smart UV Project algorithm." ++ nl);
               EvStdoutFlush;
               EvSmartProject;
               EvModeSet OBJECT;
               EvStdoutWrite (("Exporting mesh to " ++ outp ++ ".") ++ nl);
               EvStdoutFlush;
               EvExportObj outp])%list
    /\ forallb (fun e => negb (is_export e || is_mesh_transform e)) t0 = true
    /\ mode r.2 = OBJECT
    /\ active r.2 = Some ob
    /\ ob_name <$> objects r.2 !! 0 = Some ob
    /\ files r.2 !! outp = Some (write_obj (objects r.2)).
Proof.
  cbv zeta. intros Hok. success_run uv_unwrap_exits_ok Hok.
  rewrite arg_at by done. cbn [files objects mode active].
  destruct objs; do 3 eexists;
    (split_and!; [reflexivity|ends_with|..]);
    try reflexivity; apply lookup_insert_eq.
Qed.

Lemma uv_unwrap_projects_in_edit_mode_witness :
  let r := run (H := Example.host) Blender_SmartUVProjectOBJ.script
             ["blender"; "-b"; "--"; "/mods"; "in.obj"; "out.obj"]
             [] Example.disk [Example.placeholder] None in
  exits_ok r /\ mode r.2 = OBJECT.
Proof.
  cbv zeta.
  assert (Hok : exits_ok (run (H := Example.host) Blender_SmartUVProjectOBJ.script
             ["blender"; "-b"; "--"; "/mods"; "in.obj"; "out.obj"]
             [] Example.disk [Example.placeholder] None)) by reflexivity.
  split; [exact Hok|].
  destruct (uv_unwrap_projects_in_edit_mode (H := Example.host) _ _ _ _ _ Hok)
    as (t0 & ob & outp & _ & _ & _ & Hmode & _).
  exact Hmode.
Defined.





(* ===================================================================== *)
(** ** Pipelines one after the other *)




